(** * week1_exercise/managers.py: the OpenAI and Ollama managers

    A shallow embedding of [OpenAIManager] and [OllamaManager] and the
    properties of their constructors and of [display_response].

    Python strings are [string]; [Optional[str]] is [option string]; the
    process environment is a finite map from names to values; the values
    that reach the renderer are Python values ([pyval]).  The network, the
    hosted API and the file system are outside the program: the world is
    an oracle that answers each call with a value or a raised exception,
    and every call, every rendered value and everything the renderer loads
    is recorded in the state.  The renderer, [display(Markdown(...))] of
    IPython, is modelled after its constructor: it rejects what is not
    text, and loads a text that looks like a URL or names a file. *)

From Stdlib Require Import String Ascii ZArith Bool List Lia.
From stdpp Require Import base option list gmap strings pretty.

Local Open Scope string_scope.
Local Open Scope Z_scope.
Local Set Warnings "-register-all".

(** ** Python values and exceptions *)

(** What [json.loads] can produce, which is also what the renderer can be
    handed.  A float is kept as its literal. *)
Inductive pyval : Type :=
| PNone
| PBool (b : bool)
| PInt (z : Z)
| PFloat (literal : string)
| PStr (s : string)
| PList (l : list pyval)
| PDict (d : gmap string pyval).

(** [type(v).__name__] *)
Definition type_name (v : pyval) : string :=
  match v with
  | PNone => "NoneType"
  | PBool _ => "bool"
  | PInt _ => "int"
  | PFloat _ => "float"
  | PStr _ => "str"
  | PList _ => "list"
  | PDict _ => "dict"
  end.

(** A raised exception: the names of its class and of all the classes it
    derives from (the class's [__mro__]), and [str(e)]. *)
Record exn : Type := Exn { exn_mro : list string; exn_str : string }.

(** [isinstance(e, cls)], the test an [except cls] clause makes. *)
Definition isinstance (e : exn) (cls : string) : bool :=
  existsb (String.eqb cls) (exn_mro e).

Definition cException : string := "Exception".
Definition cRequestException : string := "requests.exceptions.RequestException".

Definition builtin_mro (path : list string) : list string :=
  (path ++ ["Exception"; "BaseException"; "object"])%list.

Definition ValueError (msg : string) : exn :=
  Exn (builtin_mro ["ValueError"]) msg.
Definition IndexError (msg : string) : exn :=
  Exn (builtin_mro ["IndexError"; "LookupError"]) msg.
Definition AttributeError (msg : string) : exn :=
  Exn (builtin_mro ["AttributeError"]) msg.
Definition TypeError (msg : string) : exn :=
  Exn (builtin_mro ["TypeError"]) msg.

(** The exceptions of the requests library derive from
    [RequestException], itself an [OSError]. *)
Definition requests_mro (path : list string) : list string :=
  (path ++ [cRequestException] ++ builtin_mro ["OSError"])%list.

Definition HTTPError (msg : string) : exn :=
  Exn (requests_mro ["requests.exceptions.HTTPError"]) msg.
Definition ReadTimeout (msg : string) : exn :=
  Exn (requests_mro ["requests.exceptions.ReadTimeout";
                     "requests.exceptions.Timeout"]) msg.
Definition ConnectTimeout (msg : string) : exn :=
  Exn (requests_mro ["requests.exceptions.ConnectTimeout";
                     "requests.exceptions.ConnectionError";
                     "requests.exceptions.Timeout"]) msg.

(** The result of running a piece of Python: a value, or an exception on
    its way up. *)
Inductive outcome (A : Type) : Type :=
| Returned (a : A)
| Raised (e : exn).
Arguments Returned {A} a.
Arguments Raised {A} e.

(** ** Truthiness of [Optional[str]] *)

(** [bool(x)] for [x : Optional[str]]: [None] and [""] are false. *)
Definition truthy (x : option string) : bool :=
  match x with
  | None => false
  | Some s => negb (String.eqb s "")
  end.

(** [a or b] *)
Definition py_or (a b : option string) : option string :=
  if truthy a then a else b.

(** ** The outside world *)

(** [os.environ] *)
Definition environ : Type := gmap string string.

(** [os.getenv(name)] *)
Definition getenv (env : environ) (name : string) : option string :=
  env !! name.

(** The handle [OpenAI(api_key=...)] returns: it holds the key it was
    given. *)
Record OpenAI : Type := mkOpenAI { client_api_key : option string }.

(** One entry of [messages]: [{"role": ..., "content": ...}]. *)
Record message : Type := mkMessage { role : string; content : string }.

(** What [chat.completions.create] returns, down to the part the manager
    reads: [response.choices[i].message.content], an [Optional[str]]. *)
Record ChatCompletionMessage : Type := mkCompletionMessage {
  message_content : option string
}.
Record Choice : Type := mkChoice { choice_message : ChatCompletionMessage }.
Record ChatCompletion : Type := mkChatCompletion { choices : list Choice }.

(** The JSON document posted to the generate endpoint. *)
Record payload : Type := mkPayload {
  payload_model : string;
  payload_prompt : string;
  payload_stream : bool
}.

(** A [requests.Response]: its status line, its URL, and what [.json()]
    does on its body (the decoded document, or the decoding error). *)
Record Response : Type := mkResponse {
  status_code : Z;
  reason : string;
  url : string;
  json_body : outcome pyval
}.

(** The calls that leave the program. *)
Inductive call : Type :=
| ChatCompletionsCreate (client : OpenAI) (model : string)
                        (messages : list message) (stream : bool)
| RequestsGet (target : string) (timeout : Z)
| RequestsPost (target : string) (json : payload) (timeout : Z).

(** What [urlopen(target)] followed by [read()] and the decoding of
    [DisplayObject.reload] leaves in the display object: a [str] when the
    response names a charset, and otherwise the [bytes] that were read,
    kept here as their [repr]. *)
Inductive fetched : Type :=
| FetchedStr (text : string)
| FetchedBytes (repr : string).

(** The world answers every call, knowing the calls made before it.  It
    also holds what the renderer can reach on its own: the URLs it may
    fetch and the files of the working directory ([os.path.exists] and
    [open(path).read()]); and it gives [repr(v)], which is the
    interpreter's and is not modelled.  The working directory holds no
    file whose name begins with ["Error: "]: the messages the managers
    build themselves name no file. *)
Record World : Type := BuildWorld {
  answer_create : list call -> OpenAI -> string -> list message -> bool ->
                  outcome ChatCompletion;
  answer_get : list call -> string -> Z -> outcome Response;
  answer_post : list call -> string -> payload -> Z -> outcome Response;
  answer_urlopen : list call -> string -> outcome fetched;
  path_exists : string -> bool;
  read_file : string -> outcome string;
  py_repr : pyval -> string;
  no_file_named_as_an_error :
    forall path, String.prefix "Error: " path = true ->
                 path_exists path = false
}.



(** ** Running a method *)

(** What the renderer loads on its own account. *)
Inductive access : Type :=
| Fetched (target : string)
| Opened (path : string).

(** The state a method runs in: the object it is called on, the calls its
    code made so far, the values the renderer displayed so far, and what
    the renderer loaded so far. *)
Record state (S : Type) : Type := State {
  self : S;
  calls : list call;
  rendered : list pyval;
  accessed : list access
}.
Arguments State {S} self calls rendered accessed.
Arguments self {S} s.
Arguments calls {S} s.
Arguments rendered {S} s.
Arguments accessed {S} s.

(** A state in which the renderer has loaded nothing. *)
Definition mkState {S : Type} (self : S) (calls : list call)
    (rendered : list pyval) : state S :=
  State self calls rendered [].

Definition M (S A : Type) : Type :=
  World -> state S -> outcome A * state S.

#[global] Instance M_ret (S : Type) : MRet (M S) :=
  fun A a _ st => (Returned a, st).

#[global] Instance M_bind (S : Type) : MBind (M S) :=
  fun A B f m w st =>
    match m w st with
    | (Returned a, st') => f a w st'
    | (Raised e, st') => (Raised e, st')
    end.

Section Primitives.
Context {S : Type}.

(** [raise e] *)
Definition raise {A : Type} (e : exn) : M S A :=
  fun _ st => (Raised e, st).

(** [try: body / except cls as e: handler e] *)
Definition try_except {A : Type}
    (body : M S A) (cls : string) (handler : exn -> M S A) : M S A :=
  fun w st =>
    match body w st with
    | (Returned a, st') => (Returned a, st')
    | (Raised e, st') =>
        if isinstance e cls then handler e w st' else (Raised e, st')
    end.

Definition get_self : M S S :=
  fun _ st => (Returned (self st), st).

Definition record_call (c : call) (st : state S) : state S :=
  State (self st) (calls st ++ [c])%list (rendered st) (accessed st).

Definition record_access (a : access) (st : state S) : state S :=
  State (self st) (calls st) (rendered st) (accessed st ++ [a])%list.

(** [client.chat.completions.create(model=, messages=, stream=)] *)
Definition chat_completions_create (client : OpenAI) (model : string)
    (messages : list message) (stream : bool) : M S ChatCompletion :=
  fun w st =>
    (answer_create w (calls st) client model messages stream,
     record_call (ChatCompletionsCreate client model messages stream) st).

(** [requests.get(target, timeout=)] *)
Definition requests_get (target : string) (timeout : Z) : M S Response :=
  fun w st =>
    (answer_get w (calls st) target timeout,
     record_call (RequestsGet target timeout) st).

(** [requests.post(target, json=, timeout=)] *)
Definition requests_post (target : string) (json : payload) (timeout : Z)
  : M S Response :=
  fun w st =>
    (answer_post w (calls st) target json timeout,
     record_call (RequestsPost target json timeout) st).

(** [l[i]] *)
Definition getitem {A : Type} (l : list A) (i : nat) : M S A :=
  match l !! i with
  | Some x => mret x
  | None => raise (IndexError "list index out of range")
  end.

(** The message [Response.raise_for_status()] of the requests library
    builds: empty unless the status is a client or a server error. *)
Definition http_error_msg (r : Response) : string :=
  if (400 <=? status_code r) && (status_code r <? 500) then
    pretty (status_code r) ++ " Client Error: " ++ reason r ++
    " for url: " ++ url r
  else if (500 <=? status_code r) && (status_code r <? 600) then
    pretty (status_code r) ++ " Server Error: " ++ reason r ++
    " for url: " ++ url r
  else "".

(** [Response.raise_for_status()] *)
Definition raise_for_status (r : Response) : M S unit :=
  if negb (String.eqb (http_error_msg r) "")
  then raise (HTTPError (http_error_msg r))
  else mret tt.

(** [Response.json()] *)
Definition json (r : Response) : M S pyval :=
  fun _ st => (json_body r, st).

(** [result.get(key, dflt)]: only a dict has the method. *)
Definition get (result : pyval) (key : string) (dflt : pyval) : M S pyval :=
  match result with
  | PDict d => mret (default dflt (d !! key))
  | v => raise (AttributeError
                  ("'" ++ type_name v ++ "' object has no attribute 'get'"))
  end.

(** [urlopen(target)] and the reading and decoding that follow it in
    [DisplayObject.reload]. *)
Definition urlopen (target : string) : M S fetched :=
  fun w st =>
    (answer_urlopen w (calls st) target, record_access (Fetched target) st).

(** [open(path, "r", encoding="utf-8").read()] *)
Definition open_read (path : string) : M S string :=
  fun w st => (read_file w path, record_access (Opened path) st).

(** [TextDisplayObject._check_data]: the data of a text display object
    is [None] or a [str]. *)
Definition check_data (data : pyval) : M S pyval :=
  fun w st =>
    match data with
    | PNone | PStr _ => (Returned data, st)
    | v => (Raised (TypeError ("Markdown expects text, not " ++ py_repr w v)),
            st)
    end.

(** [Markdown(data)], that is [DisplayObject.__init__] with [reload] and
    [_check_data]; the result is the object's [data].  A [str] that
    starts with ["http"] is a URL to fetch and a [str] that names an
    existing path is a file to read; what was loaded replaces it. *)
Definition Markdown (data : pyval) : M S pyval :=
  fun w st =>
    match data with
    | PStr text =>
        if String.prefix "http" text then
          match urlopen text w st with
          | (Returned (FetchedStr loaded), st') => (Returned (PStr loaded), st')
          | (Returned (FetchedBytes repr), st') =>
              (Raised (TypeError ("Markdown expects text, not " ++ repr)), st')
          | (Raised e, st') => (Raised e, st')
          end
        else if path_exists w text then
          match open_read text w st with
          | (Returned loaded, st') => (Returned (PStr loaded), st')
          | (Raised e, st') => (Raised e, st')
          end
        else (Returned data, st)
    | _ => check_data data w st
    end.

(** [display(obj)]: the object's data is shown. *)
Definition display (data : pyval) : M S unit :=
  fun _ st =>
    (Returned tt,
     State (self st) (calls st) (rendered st ++ [data])%list (accessed st)).

(** [display(Markdown(data))] *)
Definition display_Markdown (data : pyval) : M S unit :=
  shown ← Markdown data;
  display shown.
End Primitives.

(** An [Optional[str]] as a Python value. *)
Definition of_optional_str (x : option string) : pyval :=
  match x with
  | Some s => PStr s
  | None => PNone
  end.

(** ** OpenAIManager *)

Module OpenAIManager.

Record t : Type := mk {
  model : string;
  api_key : option string;
  client : OpenAI
}.

Definition api_key_required : string :=
  "OpenAI API key is required. Set OPENAI_API_KEY " ++
  "environment variable or pass api_key parameter.".

(** [__init__(self, model="gpt-4o-mini", api_key=None)]; an omitted
    argument is [None] here. *)
Definition __init__ (env : environ)
    (model : option string) (api_key : option string) : outcome t :=
  let self_model := default "gpt-4o-mini" model in
  let self_api_key := py_or api_key (getenv env "OPENAI_API_KEY") in
  if negb (truthy self_api_key) then Raised (ValueError api_key_required)
  else Returned (mk self_model self_api_key (mkOpenAI self_api_key)).

Definition system_prompt : string :=
  "You are a helpful technical assistant. Provide clear, " ++
  "detailed explanations for technical questions.".

(** [display_response(self, question)] *)
Definition display_response (question : string) : M t pyval :=
  answer ← try_except
    (self ← get_self;
     response ← chat_completions_create (client self) (model self)
       [mkMessage "system" system_prompt; mkMessage "user" question]
       false;
     choice ← getitem (choices response) 0;
     mret (of_optional_str (message_content (choice_message choice))))
    cException
    (fun e => mret (PStr ("Error: " ++ exn_str e)));
  display_Markdown answer;;
  mret PNone.

End OpenAIManager.

(** ** OllamaManager *)

(** [s.rstrip(chars)]: drop every trailing character that occurs in
    [chars]. *)
Fixpoint rstrip (chars : string) (s : string) : string :=
  match s with
  | EmptyString => EmptyString
  | String c rest =>
      match rstrip chars rest with
      | EmptyString =>
          if existsb (Ascii.eqb c) (list_ascii_of_string chars)
          then EmptyString else String c EmptyString
      | String _ _ as kept => String c kept
      end
  end.

(** The line feed of ["\n"]. *)
Definition LF : string := String "010"%char EmptyString.

Module OllamaManager.

Record t : Type := mk {
  model : string;
  base_url : string;
  api_url : string
}.

Definition SYSTEM_PROMPT : string :=
  "You are a helpful technical assistant. Provide clear, " ++
  "detailed explanations for technical questions.".

(** [__init__(self, model="llama3.2", base_url="http://localhost:11434")];
    an omitted argument is [None] here.  The environment is not an
    argument: the constructor reads nothing from it. *)
Definition __init__ (model : option string) (base_url : option string) : t :=
  let self_model := default "llama3.2" model in
  let self_base_url :=
    rstrip "/" (default "http://localhost:11434" base_url) in
  mk self_model self_base_url (self_base_url ++ "/api").

(** [_check_ollama_connection(self)] *)
Definition _check_ollama_connection : M t bool :=
  try_except
    (self ← get_self;
     response ← requests_get (api_url self ++ "/tags") 5;
     mret (status_code response =? 200))
    cRequestException
    (fun _ => mret false).

Definition cannot_connect : string :=
  "Error: Cannot connect to Ollama. Make sure Ollama is running " ++
  "on localhost:11434".

(** [display_response(self, question)] *)
Definition display_response (question : string) : M t pyval :=
  connected ← _check_ollama_connection;
  response ←
    (if negb connected then mret (PStr cannot_connect)
     else
       try_except
         (self ← get_self;
          let prompt := SYSTEM_PROMPT ++ LF ++ LF ++ "Question: " ++ question in
          let payload := mkPayload (model self) prompt false in
          api_response ← requests_post (api_url self ++ "/generate") payload 30;
          raise_for_status api_response;;
          result ← json api_response;
          get result "response" (PStr "No response received"))
         cException
         (fun e => mret (PStr ("Error: " ++ exn_str e))));
  display_Markdown response;;
  mret PNone.

End OllamaManager.

(** ** Either manager *)





(** ** Statements

    The predicates the properties below are stated with, and, for the
    sentences of the specification that the code does not satisfy, the
    sentence as it is worded. *)

(** An explicit credential always constructs, and is the credential
    stored. *)
Definition explicit_credential_always_constructs : Prop :=
  forall (env : environ) (model : option string) (key : string),
    exists m, OpenAIManager.__init__ env model (Some key) = Returned m /\
              OpenAIManager.api_key m = Some key.

(** [n] copies of a character. *)
Fixpoint copies (c : ascii) (n : nat) : string :=
  match n with
  | O => EmptyString
  | S n' => String c (copies c n')
  end.

(** The string ends with a slash. *)
Definition ends_with_slash (s : string) : Prop :=
  exists p, s = p ++ "/".

(** The three calls the managers make. *)
Definition create_call (m : OpenAIManager.t) (question : string) : call :=
  ChatCompletionsCreate (OpenAIManager.client m) (OpenAIManager.model m)
    [mkMessage "system" OpenAIManager.system_prompt;
     mkMessage "user" question]
    false.

Definition probe_call (m : OllamaManager.t) : call :=
  RequestsGet (OllamaManager.api_url m ++ "/tags") 5.



(** The world's answers to them, for a call that starts after the calls
    [cs]. *)
Definition create_answer (w : World) (cs : list call)
    (m : OpenAIManager.t) (question : string) : outcome ChatCompletion :=
  answer_create w cs (OpenAIManager.client m) (OpenAIManager.model m)
    [mkMessage "system" OpenAIManager.system_prompt;
     mkMessage "user" question]
    false.

Definition probe_answer (w : World) (cs : list call) (m : OllamaManager.t)
  : outcome Response :=
  answer_get w cs (OllamaManager.api_url m ++ "/tags") 5.














(** The end of both [display_response] methods, once the answer is
    known: [display(Markdown(answer))], then [return None]. *)
Definition render_and_return {S : Type} (answer : pyval) : M S pyval :=
  display_Markdown answer;;
  mret PNone.

(** [e] is an exception that [display(Markdown(v))] raises for some [v],
    after the calls [cs]. *)
Definition raised_by_renderer (w : World) (cs : list call) (e : exn) : Prop :=
  exists v, fst (display_Markdown v w (mkState tt cs [])) = Raised e.

(** What the renderer loaded during one call: nothing, or one URL that
    begins with ["http"], or one existing file. *)
Definition loaded_at_most_once (w : World) (before after : list access)
  : Prop :=
  after = before \/
  exists text,
    after = (before ++ [Fetched text])%list /\
      String.prefix "http" text = true \/
    after = (before ++ [Opened text])%list /\ path_exists w text = true.




(** Unfold a method down to the primitives it is made of, up to the
    rendering of the answer. *)
Ltac run_method :=
  unfold OpenAIManager.display_response, OllamaManager.display_response,
    OllamaManager._check_ollama_connection, render_and_return,
    try_except, get_self, chat_completions_create, requests_get,
    requests_post, getitem, raise_for_status, json, get,
    raise, record_call, mbind, M_bind, mret, M_ret; simpl.

(** Unfold the renderer. *)
Ltac run_renderer :=
  unfold render_and_return, display_Markdown, Markdown, check_data, display,
    urlopen, open_read, record_access, mbind, M_bind, mret, M_ret; simpl.

(** * Properties *)

(** ** Truthiness *)

Lemma truthy_spec (x : option string) :
  truthy x = true <-> exists s, x = Some s /\ s <> "".
Proof.
  destruct x as [s|]; simpl.
  - rewrite negb_true_iff. split.
    + intros H. exists s. split; [reflexivity|].
      intros ->. discriminate.
    + intros (s' & [= <-] & Hne).
      apply String.eqb_neq. exact Hne.
  - split; [discriminate|]. intros (s & H & _). discriminate.
Qed.

Lemma truthy_Some (s : string) : s <> "" -> truthy (Some s) = true.
Proof. intros H. apply truthy_spec. eauto. Qed.

Lemma py_or_falsy (a b : option string) : truthy a = false -> py_or a b = b.
Proof. unfold py_or. intros ->. reflexivity. Qed.

Lemma py_or_truthy (a b : option string) : truthy a = true -> py_or a b = a.
Proof. unfold py_or. intros ->. reflexivity. Qed.

(** ** OpenAIManager.__init__ *)

Example init_reads_environment :
  OpenAIManager.__init__ {[ "OPENAI_API_KEY" := "sk-env" ]} None None =
  Returned (OpenAIManager.mk "gpt-4o-mini" (Some "sk-env")
                             (mkOpenAI (Some "sk-env"))).
Proof. reflexivity. Qed.

(** C2: with no explicit credential and [OPENAI_API_KEY] absent from the
    environment, construction raises the [ValueError] that asks for a key,
    whatever the model; the constructor's outcome is the raised error. *)
Theorem init_without_credential_raises
    (env : environ) (model : option string) :
  getenv env "OPENAI_API_KEY" = None ->
  OpenAIManager.__init__ env model None =
  Raised (ValueError
    "OpenAI API key is required. Set OPENAI_API_KEY environment variable or pass api_key parameter.").
Proof.
  intros Henv. unfold OpenAIManager.__init__.
  rewrite py_or_falsy by reflexivity. rewrite Henv. reflexivity.
Qed.

Lemma init_without_credential_raises_witness :
  getenv (<[ "HOME" := "/root" ]> ∅) "OPENAI_API_KEY" = None /\
  OpenAIManager.__init__ (<[ "HOME" := "/root" ]> ∅) (Some "gpt-4o") None =
  Raised (ValueError
    "OpenAI API key is required. Set OPENAI_API_KEY environment variable or pass api_key parameter.").
Proof.
  split; [reflexivity|].
  apply (init_without_credential_raises (<[ "HOME" := "/root" ]> ∅)
           (Some "gpt-4o")).
  reflexivity.
Defined.

(** C5 as worded (an explicit credential always constructs and is the one
    stored) fails at the explicit credential [""] with an empty
    environment: construction raises. *)
Lemma explicit_empty_credential_refutes :
  ~ explicit_credential_always_constructs.
Proof.
  intros H. destruct (H ∅ None "") as (m & Hm & _).
  vm_compute in Hm. discriminate Hm.
Qed.

(** C5, amended: an explicit credential that is not the empty string
    constructs in every environment; the stored credential, and the one
    the client handle is built with, is the explicit one. *)
Theorem init_with_explicit_credential
    (env : environ) (model : option string) (key : string) :
  key <> "" ->
  OpenAIManager.__init__ env model (Some key) =
  Returned (OpenAIManager.mk (default "gpt-4o-mini" model) (Some key)
                             (mkOpenAI (Some key))).
Proof.
  intros Hkey. unfold OpenAIManager.__init__.
  rewrite py_or_truthy by (apply truthy_Some; exact Hkey).
  rewrite truthy_Some by exact Hkey. reflexivity.
Qed.

Lemma init_with_explicit_credential_witness :
  "sk-arg" <> "" /\
  OpenAIManager.__init__ {[ "OPENAI_API_KEY" := "sk-env" ]} None
                         (Some "sk-arg") =
  Returned (OpenAIManager.mk "gpt-4o-mini" (Some "sk-arg")
                             (mkOpenAI (Some "sk-arg"))).
Proof.
  split; [discriminate|].
  apply (init_with_explicit_credential {[ "OPENAI_API_KEY" := "sk-env" ]}
           None "sk-arg").
  discriminate.
Defined.

(** C10: the explicit credential [""] constructs exactly as no explicit
    credential does: the environment variable decides, and construction
    raises the [ValueError] when the variable is unset or empty. *)
Theorem init_empty_credential_falls_back
    (env : environ) (model : option string) :
  OpenAIManager.__init__ env model (Some "") =
  OpenAIManager.__init__ env model None /\
  OpenAIManager.__init__ env model (Some "") =
  match getenv env "OPENAI_API_KEY" with
  | Some key =>
      if String.eqb key "" then
        Raised (ValueError OpenAIManager.api_key_required)
      else
        Returned (OpenAIManager.mk (default "gpt-4o-mini" model) (Some key)
                                   (mkOpenAI (Some key)))
  | None => Raised (ValueError OpenAIManager.api_key_required)
  end.
Proof.
  split; [reflexivity|].
  unfold OpenAIManager.__init__.
  rewrite py_or_falsy by reflexivity.
  destruct (getenv env "OPENAI_API_KEY") as [key|]; [|reflexivity].
  simpl. destruct (String.eqb key ""); reflexivity.
Qed.

(** ** OllamaManager.__init__ *)

Lemma append_empty_l (s : string) : "" ++ s = s.
Proof. reflexivity. Qed.

Lemma append_String_l (c : ascii) (s t : string) :
  String c s ++ t = String c (s ++ t).
Proof. reflexivity. Qed.

Lemma rstrip_slash_copies (s : string) :
  exists n, s = rstrip "/" s ++ copies "/" n.
Proof.
  induction s as [|c rest [n IH]]; simpl.
  - exists 0%nat. reflexivity.
  - destruct (rstrip "/" rest) as [|c' kept] eqn:Hrest.
    + rewrite append_empty_l in IH.
      destruct (Ascii.eqb c "/") eqn:Hc; simpl.
      * apply Ascii.eqb_eq in Hc. subst c.
        exists (S n). rewrite append_empty_l. simpl. congruence.
      * exists n. rewrite append_String_l, append_empty_l. congruence.
    + exists n. rewrite append_String_l. congruence.
Qed.

Lemma rstrip_slash_no_trailing (s : string) : ~ ends_with_slash (rstrip "/" s).
Proof.
  induction s as [|c rest IH]; simpl; intros [p Hp].
  - destruct p; discriminate Hp.
  - destruct (rstrip "/" rest) as [|c' kept] eqn:Hrest.
    + destruct (Ascii.eqb c "/") eqn:Hc; simpl in Hp.
      * destruct p; discriminate Hp.
      * destruct p as [|a [|b p']]; try discriminate Hp.
        rewrite append_empty_l in Hp.
        injection Hp as ->. discriminate Hc.
    + destruct p as [|a p'].
      * discriminate Hp.
      * rewrite append_String_l in Hp.
        injection Hp as _ Hkept. apply IH. exists p'. exact Hkept.
Qed.

Example rstrip_removes_every_slash : rstrip "/" "http://host:1//" = "http://host:1".
Proof. reflexivity. Qed.

(** C7: the constructor stores the given base URL without its trailing
    slashes (what was cut off is a run of slashes, and what is stored does
    not end with one), the API root is the stored base URL followed by
    ["/api"], and an omitted base URL is ["http://localhost:11434"].  The
    constructor takes no credential and no environment, stores no
    credential and cannot raise. *)
Theorem ollama_init_normalizes_base_url
    (model : option string) (base_url : string) :
  let m := OllamaManager.__init__ model (Some base_url) in
  OllamaManager.base_url m = rstrip "/" base_url /\
  (exists n, base_url = OllamaManager.base_url m ++ copies "/" n) /\
  ~ ends_with_slash (OllamaManager.base_url m) /\
  OllamaManager.api_url m = OllamaManager.base_url m ++ "/api" /\
  OllamaManager.__init__ model None =
    OllamaManager.mk (default "llama3.2" model) "http://localhost:11434"
                     "http://localhost:11434/api".
Proof.
  simpl. repeat split.
  - apply rstrip_slash_copies.
  - apply rstrip_slash_no_trailing.
Qed.


(** ** The renderer *)





(** What rendering an answer does in general: the object and the calls
    stay, the renderer loads at most once, and the answer is either shown,
    and [None] returned, or an exception of the renderer comes up and
    nothing is shown. *)
Lemma render_and_return_effects {S : Type}
    (w : World) (v : pyval) (s : S)
    (cs : list call) (rd : list pyval) (acc : list access) :
  let r := render_and_return v w (State s cs rd acc) in
  self (snd r) = s /\
  calls (snd r) = cs /\
  loaded_at_most_once w acc (accessed (snd r)) /\
  match fst r with
  | Returned x =>
      x = PNone /\ exists shown, rendered (snd r) = (rd ++ [shown])%list
  | Raised e => rendered (snd r) = rd /\ raised_by_renderer w cs e
  end.
Proof.
  intros r. subst r. unfold raised_by_renderer, loaded_at_most_once.
  destruct v as [|b|z|literal|text|l|d];
    try (run_renderer; repeat split; [left; reflexivity|];
         match goal with
         | |- exists v, _ => eexists ?[v]
         end;
         match goal with
         | |- context [py_repr w ?u] => instantiate (v := u)
         end; reflexivity).
  - run_renderer. repeat split; [left; reflexivity|eexists; reflexivity].
  - run_renderer.
    destruct (String.prefix "http" text) eqn:Hhttp.
    + destruct (answer_urlopen w cs text) as [[loaded|repr]|e] eqn:Hfetch;
        simpl; repeat split;
        try (right; exists text; left; split; [reflexivity|exact Hhttp]);
        try (eexists; reflexivity);
        exists (PStr text); run_renderer; rewrite Hhttp, Hfetch; reflexivity.
    + destruct (path_exists w text) eqn:Hpath.
      * destruct (read_file w text) as [loaded|e] eqn:Hread;
          simpl; repeat split;
          try (right; exists text; right; split; [reflexivity|exact Hpath]);
          try (eexists; reflexivity);
          exists (PStr text); run_renderer;
          rewrite Hhttp, Hpath, Hread; reflexivity.
      * simpl. repeat split; [left; reflexivity|eexists; reflexivity].
Qed.

(** ** Running display_response *)

Lemma app_two {A : Type} (l : list A) (x y : A) :
  ((l ++ [x]) ++ [y] = l ++ [x; y])%list.
Proof. rewrite <- app_assoc. reflexivity. Qed.

(** What the remote manager's call does, by the world's answer. *)
Lemma openai_display_response_run
    (w : World) (m : OpenAIManager.t) (question : string)
    (cs : list call) (rd : list pyval) (acc : list access) :
  OpenAIManager.display_response question w (State m cs rd acc) =
  let st := State m (cs ++ [create_call m question]) rd acc in
  match create_answer w cs m question with
  | Returned response =>
      render_and_return
        match choices response with
        | choice :: _ =>
            of_optional_str (message_content (choice_message choice))
        | [] => PStr ("Error: " ++ "list index out of range")
        end w st
  | Raised e =>
      if isinstance e cException
      then render_and_return (PStr ("Error: " ++ exn_str e)) w st
      else (Raised e, st)
  end.
Proof.
  unfold create_answer, create_call. run_method.
  destruct (answer_create w cs _ _ _ _) as [response|e]; simpl.
  - destruct (choices response) as [|choice rest]; reflexivity.
  - destruct (isinstance e cException); reflexivity.
Qed.

(** What the probe does, by the world's answer. *)
Lemma check_ollama_connection_run
    (w : World) (m : OllamaManager.t)
    (cs : list call) (rd : list pyval) (acc : list access) :
  OllamaManager._check_ollama_connection w (State m cs rd acc) =
  (match probe_answer w cs m with
   | Returned response => Returned (status_code response =? 200)
   | Raised e =>
       if isinstance e cRequestException then Returned false else Raised e
   end,
   State m (cs ++ [probe_call m]) rd acc).
Proof.
  unfold probe_answer, probe_call. run_method.
  destruct (answer_get w cs _ _) as [response|e]; simpl; [reflexivity|].
  destruct (isinstance e cRequestException); reflexivity.
Qed.






(** ** OllamaManager.display_response *)

Example timeouts_are_request_exceptions (msg : string) :
  isinstance (ConnectTimeout msg) cRequestException = true /\
  isinstance (ReadTimeout msg) cRequestException = true.
Proof. split; reflexivity. Qed.










(** ** OpenAIManager.display_response *)




(** ** Exceptions during a call *)

Lemma isinstance_HTTPError (msg : string) :
  isinstance (HTTPError msg) cException = true.
Proof. reflexivity. Qed.




(** ** What a call leaves behind *)







(** * Further properties of the managers *)

(** ** OpenAIManager.__init__ *)

(** X1: construction either raises the [ValueError] that asks for a key,
    or returns a manager whose credential is a non-empty string, taken
    from the argument when that is non-empty and from [OPENAI_API_KEY]
    otherwise, and whose client handle was built with that same
    credential.  No manager is ever built around an empty credential. *)
Theorem init_outcomes
    (env : environ) (model api_key : option string) :
  OpenAIManager.__init__ env model api_key =
    Raised (ValueError OpenAIManager.api_key_required) /\
  truthy api_key = false /\ truthy (getenv env "OPENAI_API_KEY") = false
  \/
  exists key,
    key <> "" /\
    (api_key = Some key \/
     truthy api_key = false /\ getenv env "OPENAI_API_KEY" = Some key) /\
    OpenAIManager.__init__ env model api_key =
    Returned (OpenAIManager.mk (default "gpt-4o-mini" model) (Some key)
                               (mkOpenAI (Some key))).
Proof.
  unfold OpenAIManager.__init__.
  destruct (truthy api_key) eqn:Harg.
  - right. rewrite py_or_truthy by exact Harg. rewrite Harg.
    apply truthy_spec in Harg as (key & -> & Hkey).
    exists key. split; [exact Hkey|]. split; [left; reflexivity|reflexivity].
  - rewrite py_or_falsy by exact Harg.
    destruct (truthy (getenv env "OPENAI_API_KEY")) eqn:Henv.
    + right. apply truthy_spec in Henv as (key & Hget & Hkey).
      exists key. rewrite Hget.
      split; [exact Hkey|]. split; [right; split; reflexivity|reflexivity].
    + left. split; [reflexivity|]. split; reflexivity.
Qed.

(** ** OllamaManager.__init__ *)

Lemma rstrip_slash_only_slashes (n : nat) : rstrip "/" (copies "/" n) = "".
Proof.
  induction n as [|n IH]; [reflexivity|].
  simpl. simpl in IH. rewrite IH. reflexivity.
Qed.

Lemma rstrip_slash_app_copies (s : string) (n : nat) :
  rstrip "/" (s ++ copies "/" n) = rstrip "/" s.
Proof.
  induction s as [|c rest IH].
  - rewrite append_empty_l. apply rstrip_slash_only_slashes.
  - rewrite append_String_l. simpl. simpl in IH. rewrite IH. reflexivity.
Qed.

Lemma rstrip_slash_idempotent (s : string) :
  rstrip "/" (rstrip "/" s) = rstrip "/" s.
Proof.
  destruct (rstrip_slash_copies s) as [n Hs].
  rewrite Hs at 2. rewrite rstrip_slash_app_copies. reflexivity.
Qed.

(** X2: base URLs that differ only in the number of trailing slashes give
    the same manager, and constructing again from a manager's stored base
    URL gives that manager back.  A base URL made of slashes alone is
    stored as the empty string, with ["/api"] as the API root. *)
Theorem trailing_slashes_do_not_matter
    (model : option string) (base_url : string) (n : nat) :
  OllamaManager.__init__ model (Some (base_url ++ copies "/" n)) =
  OllamaManager.__init__ model (Some base_url) /\
  OllamaManager.__init__ model
    (Some (OllamaManager.base_url
             (OllamaManager.__init__ model (Some base_url)))) =
  OllamaManager.__init__ model (Some base_url) /\
  OllamaManager.__init__ model (Some (copies "/" n)) =
  OllamaManager.mk (default "llama3.2" model) "" "/api".
Proof.
  unfold OllamaManager.__init__. simpl default.
  cbv beta zeta. simpl OllamaManager.base_url.
  rewrite rstrip_slash_app_copies, rstrip_slash_idempotent,
    rstrip_slash_only_slashes.
  repeat split.
Qed.


(** ** What one call adds *)

(** The remote manager's call adds its one request; the renderer loads at
    most once; a call that returns has rendered one more value, and a
    call that an exception leaves has rendered nothing. *)
Lemma openai_display_response_effects
    (w : World) (question : string) (st : state OpenAIManager.t) :
  let r := OpenAIManager.display_response question w st in
  self (snd r) = self st /\
  calls (snd r) = (calls st ++ [create_call (self st) question])%list /\
  loaded_at_most_once w (accessed st) (accessed (snd r)) /\
  match fst r with
  | Returned _ => exists v, rendered (snd r) = (rendered st ++ [v])%list
  | Raised _ => rendered (snd r) = rendered st
  end.
Proof.
  destruct st as [m cs rd acc]. intros r. subst r.
  rewrite openai_display_response_run. cbv zeta. simpl.
  assert (Hrender : forall v,
    let r := render_and_return v w
               (State m (cs ++ [create_call m question]) rd acc) in
    self (snd r) = m /\
    calls (snd r) = (cs ++ [create_call m question])%list /\
    loaded_at_most_once w acc (accessed (snd r)) /\
    match fst r with
    | Returned _ => exists v, rendered (snd r) = (rd ++ [v])%list
    | Raised _ => rendered (snd r) = rd
    end).
  { intros v r.
    pose proof (render_and_return_effects w v m
                  (cs ++ [create_call m question]) rd acc)
      as (Hself & Hcalls & Hacc & Hout).
    fold r in Hself, Hcalls, Hacc, Hout.
    repeat split; try assumption.
    destruct (fst r); [apply Hout|apply Hout]. }
  destruct (create_answer w cs m question) as [response|e].
  - apply Hrender.
  - destruct (isinstance e cException); [apply Hrender|].
    repeat split. left. reflexivity.
Qed.


(** ** OllamaManager._check_ollama_connection *)

(** X3: the probe makes exactly one request, a GET of the API root's
    [/tags] with a timeout of 5, and renders nothing.  It answers [True]
    exactly when that request returns with status 200; it raises only an
    exception of that request that is no [RequestException]. *)
Theorem check_connection_true_iff_200
    (w : World) (m : OllamaManager.t) (cs : list call) (rd : list pyval) :
  let r := OllamaManager._check_ollama_connection w (mkState m cs rd) in
  snd r =
    mkState m (cs ++ [RequestsGet (OllamaManager.api_url m ++ "/tags") 5])
            rd /\
  (fst r = Returned true <->
   exists response, probe_answer w cs m = Returned response /\
                    status_code response = 200) /\
  (forall e, fst r = Raised e ->
             probe_answer w cs m = Raised e /\
             isinstance e cRequestException = false).
Proof.
  intros r. subst r. unfold mkState.
  rewrite check_ollama_connection_run. simpl.
  split; [reflexivity|].
  destruct (probe_answer w cs m) as [response|e].
  - split.
    + split.
      * intros [= Hstatus]. exists response.
        split; [reflexivity|]. apply Z.eqb_eq. exact Hstatus.
      * intros (response' & [= <-] & Hstatus).
        f_equal. apply Z.eqb_eq. exact Hstatus.
    + intros e. discriminate.
  - destruct (isinstance e cRequestException) eqn:Hcls.
    + split.
      * split; [discriminate|]. intros (response & Hresp & _).
        discriminate Hresp.
      * intros e'. discriminate.
    + split.
      * split; [discriminate|]. intros (response & Hresp & _).
        discriminate Hresp.
      * intros e' [= <-]. split; [reflexivity|exact Hcls].
Qed.

(** ** OpenAIManager.display_response: edge cases and composition *)



(** X5: the remote manager keeps no conversation: after two calls in a row
    the requests made are the first question's and the second question's,
    each with the system instruction and that one question only, whatever
    the world answered. *)
Theorem remote_asks_keep_no_history
    (w : World) (m : OpenAIManager.t) (first second : string)
    (cs : list call) (rd : list pyval) :
  let st1 := snd (OpenAIManager.display_response first w (mkState m cs rd)) in
  let st2 := snd (OpenAIManager.display_response second w st1) in
  calls st2 =
  (cs ++ [ChatCompletionsCreate (OpenAIManager.client m)
            (OpenAIManager.model m)
            [mkMessage "system" OpenAIManager.system_prompt;
             mkMessage "user" first]
            false;
          ChatCompletionsCreate (OpenAIManager.client m)
            (OpenAIManager.model m)
            [mkMessage "system" OpenAIManager.system_prompt;
             mkMessage "user" second]
            false])%list.
Proof.
  intros st1 st2. subst st2 st1.
  pose proof (openai_display_response_effects w first (mkState m cs rd))
    as (Hself1 & Hcalls1 & _).
  pose proof (openai_display_response_effects w second
                (snd (OpenAIManager.display_response first w
                        (mkState m cs rd))))
    as (_ & Hcalls2 & _).
  rewrite Hcalls2, Hcalls1, Hself1. simpl. apply app_two.
Qed.

(** ** OllamaManager.display_response: edge cases *)










(** ** Either manager: what one call adds *)



